(** * The TPU accelerator of pytorch_lightning

    A shallow embedding of [pytorch_lightning/accelerators/tpu.py] and the
    properties of its three operations: [setup], [run_optimizer_step] and
    [clip_gradients].

    The methods of [TPUAccelerator] are written in a small program monad
    whose only effects are raising a Python exception and calling one of
    the three collaborators the class hands work to: the [setup] of the
    base [Accelerator], [xm.optimizer_step] and [xla_clip_grad_norm_]. *)

From Stdlib Require Import ZArith Lia Floats.
From stdpp Require Import base option list gmap strings fin_maps.

Local Open Scope string_scope.
Local Open Scope Z_scope.

(** ** Python values *)

(** An object is known by its identity and by the method-resolution order
    of its class ([type(o).__mro__], the class itself first). *)
Record pyobj : Type := PyObj { oid : N; mro : list string }.

(** [isinstance(o, cls)]: [cls] is the class of [o] or one of its bases. *)
Definition isinstance (o : pyobj) (cls : string) : bool :=
  bool_decide (cls ∈ mro o).

(** [isinstance(o, (cls1, ..., clsn))]. *)
Definition isinstance_tuple (o : pyobj) (clss : list string) : bool :=
  existsb (isinstance o) clss.

(** Python floats are binary64: [spec_float], the Standard Library's
    specification of them, at its [prec = 53] and [emax = 1024].  The
    literals [0] and [2.0] of the source: *)
Definition float_zero : spec_float := S754_zero false.
Definition float_two : spec_float := Eval vm_compute in Prim2SF 2%float.

(** [a <= b] and [a < b] on floats; both are false when a NaN is involved. *)
Definition float_le (a b : spec_float) : bool := SFleb a b.
Definition float_lt (a b : spec_float) : bool := SFltb a b.

Inductive value : Type :=
| VNone
| VBool (b : bool)
| VInt (z : Z)
| VFloat (f : spec_float)
| VStr (s : string)
| VObj (o : pyobj).

(** [Union[float, int]], the type of a clipping threshold. *)
Inductive number : Type :=
| NInt (z : Z)
| NFloat (f : spec_float).

(** [n > 0] as Python evaluates it. *)
Definition number_gt0 (n : number) : bool :=
  match n with
  | NInt z => 0 <? z
  | NFloat f => float_lt float_zero f
  end.

Inductive exn : Type :=
| MisconfigurationException (msg : string)
| NotImplementedError
| OverflowError (msg : string)
| ForeignError (e : pyobj).

(** ** The classes and the enumeration the module imports *)

Definition MixedPrecisionPlugin : string := "MixedPrecisionPlugin".
Definition SingleTPUPlugin : string := "SingleTPUPlugin".
Definition TPUSpawnPlugin : string := "TPUSpawnPlugin".

(** Modelled from the spec: the declaration of the enumeration
    [GradClipAlgorithmType] of [pytorch_lightning.utilities.enums] is
    missing; the specification gives the selector the recognized values
    NORM and VALUE. *)
Inductive GradClipAlgorithmType : Type := VALUE | NORM.

#[global] Instance GradClipAlgorithmType_eq_dec : EqDecision GradClipAlgorithmType.
Proof. solve_decision. Defined.

(** ** The accelerator and its collaborators *)

(** A module and its live parameters ([model.parameters()]), each a
    reference to a tensor the module owns. *)
Record LightningModule : Type :=
  { module_obj : pyobj; parameters : list pyobj }.

(** The attributes of the accelerator that [tpu.py] reads. *)
Record TPUAccelerator : Type :=
  { precision_plugin : pyobj;
    training_type_plugin : pyobj;
    lightning_module : LightningModule }.

(** The calls that leave the class. *)
Inductive ext_call : Type :=
| Accelerator_setup (self : TPUAccelerator) (trainer : pyobj) (model : LightningModule)
| xm_optimizer_step (optimizer : pyobj) (barrier : bool) (optimizer_args : gmap string value)
| xla_clip_grad_norm_ (params : list pyobj) (max_norm norm_type : spec_float).

(** ** Programs *)

Inductive prog (R : Type) : Type :=
| Ret (r : R)
| Raise (e : exn)
| Call (c : ext_call) (k : value -> prog R).

Arguments Ret {R} r.
Arguments Raise {R} e.
Arguments Call {R} c k.

Fixpoint bind {A B : Type} (p : prog A) (f : A -> prog B) : prog B :=
  match p with
  | Ret a => f a
  | Raise e => Raise e
  | Call c k => Call c (fun v => bind (k v) f)
  end.

#[global] Instance prog_ret : MRet prog := @Ret.
#[global] Instance prog_bind : MBind prog := fun A B f p => bind p f.

Definition raise {R : Type} (e : exn) : prog R := Raise e.
Definition call (c : ext_call) : prog value := Call c Ret.

(** [if c: body] whose body is a statement. *)
Definition when (c : bool) (body : prog unit) : prog unit :=
  if c then body else Ret tt.

(** [float(n)]: a float is returned as it is; an integer is rounded to the
    nearest binary64, ties to even, and one that rounds beyond the largest
    finite float raises [OverflowError]. *)
Definition py_float (n : number) : prog spec_float :=
  match n with
  | NFloat f => Ret f
  | NInt z =>
      match binary_normalize prec emax z 0 false with
      | S754_infinity _ => raise (OverflowError "int too large to convert to float")
      | f => Ret f
      end
  end.

(** [{**d, **kw}]: the entries of [kw] are written over those of [d]. *)
Definition dict_unpack (d kw : gmap string value) : gmap string value := kw ∪ d.

(** ** [class TPUAccelerator(Accelerator)] *)

Definition amp_message : string :=
  "amp + tpu is not supported. Only bfloats are supported on TPU. Consider using TPUHalfPrecisionPlugin".

Definition strategy_message : string :=
  "TPUs only support a single tpu core or tpu spawn training.".

Definition setup (self : TPUAccelerator) (trainer : pyobj) (model : LightningModule)
  : prog value :=
  when (isinstance (precision_plugin self) MixedPrecisionPlugin)
       (raise (MisconfigurationException amp_message)) ;;
  when (negb (isinstance_tuple (training_type_plugin self) [SingleTPUPlugin; TPUSpawnPlugin]))
       (raise (MisconfigurationException strategy_message)) ;;
  call (Accelerator_setup self trainer model).

Definition run_optimizer_step (self : TPUAccelerator) (optimizer : pyobj)
    (optimizer_idx : Z) (lambda_closure : value) (kwargs : gmap string value)
  : prog value :=
  call (xm_optimizer_step optimizer false
          (dict_unpack {[ "closure" := lambda_closure ]} kwargs)) ;;
  mret VNone.

Definition _clip_gradients_norm (self : TPUAccelerator) (clip_val : number)
    (norm_type : spec_float) : prog value :=
  let model := lightning_module self in
  let params := parameters model in
  grad_clip_val ← py_float clip_val;
  if float_le grad_clip_val float_zero then mret VNone
  else
    let max_norm := grad_clip_val in
    call (xla_clip_grad_norm_ params max_norm norm_type) ;;
    mret VNone.

(** The default of [_clip_gradients_norm]'s parameter [norm_type]. *)
Definition norm_type_default : spec_float := float_two.

Definition clip_gradients (self : TPUAccelerator) (optimizer : pyobj)
    (clip_val : number) (gradient_clip_algorithm : GradClipAlgorithmType)
  : prog value :=
  if decide (gradient_clip_algorithm = NORM) then
    _clip_gradients_norm self clip_val norm_type_default
  else raise NotImplementedError.

(** ** Running a program against its collaborators *)

(** The collaborators are an environment [env]: a call made in a world
    either returns a value or raises, and leaves a world behind.  [run]
    gives the result of a program, the world it ends in, and the calls it
    made, in order.  An exception raised by a collaborator is not caught:
    it ends the program. *)
Section Run.
Context {World : Type}.
Variable env : ext_call -> World -> (exn + value) * World.

Fixpoint run {R : Type} (p : prog R) (w : World)
  : (exn + R) * World * list ext_call :=
  match p with
  | Ret r => (inr r, w, [])
  | Raise e => (inl e, w, [])
  | Call c k =>
      match env c w with
      | (inl e, w') => (inl e, w', [c])
      | (inr v, w') =>
          let '(r, w'', t) := run (k v) w' in (r, w'', c :: t)
      end
  end.
End Run.

Definition result {World R : Type} (o : (exn + R) * World * list ext_call) : exn + R :=
  fst (fst o).
Definition final {World R : Type} (o : (exn + R) * World * list ext_call) : World :=
  snd (fst o).
Definition trace {World R : Type} (o : (exn + R) * World * list ext_call) : list ext_call :=
  snd o.

(** The program raises a [MisconfigurationException] of its own, before
    any call leaves the class. *)
Definition raises_MisconfigurationException {R : Type} (p : prog R) : bool :=
  match p with
  | Raise (MisconfigurationException _) => true
  | _ => false
  end.

Definition is_xla_clip_grad_norm_ (c : ext_call) : bool :=
  match c with xla_clip_grad_norm_ _ _ _ => true | _ => false end.
Definition is_xm_optimizer_step (c : ext_call) : bool :=
  match c with xm_optimizer_step _ _ _ => true | _ => false end.
Definition is_Accelerator_setup (c : ext_call) : bool :=
  match c with Accelerator_setup _ _ _ => true | _ => false end.

(** How many calls of a kind a trace holds. *)
Definition count (kind : ext_call -> bool) (t : list ext_call) : nat :=
  length (filter (fun c => kind c = true) t).

(** The two conditions [setup] tests. *)
Definition mixed_precision (self : TPUAccelerator) : bool :=
  isinstance (precision_plugin self) MixedPrecisionPlugin.
Definition supported_strategy (self : TPUAccelerator) : bool :=
  isinstance_tuple (training_type_plugin self) [SingleTPUPlugin; TPUSpawnPlugin].

(** The accelerator with another training-type plugin assigned. *)
Definition with_strategy (self : TPUAccelerator) (strategy : pyobj) : TPUAccelerator :=
  {| precision_plugin := precision_plugin self;
     training_type_plugin := strategy;
     lightning_module := lightning_module self |}.


(** The program is one call of [xla_clip_grad_norm_] on [params], with
    [float(clip_val)] for [max_norm] and 2.0 for [norm_type]. *)
Definition clips_norm_once (p : prog value) (params : list pyobj) (clip_val : number)
  : Prop :=
  exists max_norm : spec_float,
    py_float clip_val = Ret max_norm
    /\ p = (call (xla_clip_grad_norm_ params max_norm float_two) ;; mret VNone).

(** The exception a program raises of its own, before any call leaves
    the class. *)
Definition own_exception {R : Type} (p : prog R) : option exn :=
  match p with
  | Raise e => Some e
  | _ => None
  end.

(** The accelerator with another module attached, and with other plugins
    assigned. *)
Definition with_module (self : TPUAccelerator) (model : LightningModule) : TPUAccelerator :=
  {| precision_plugin := precision_plugin self;
     training_type_plugin := training_type_plugin self;
     lightning_module := model |}.

Definition with_plugins (self : TPUAccelerator) (precision strategy : pyobj)
  : TPUAccelerator :=
  {| precision_plugin := precision;
     training_type_plugin := strategy;
     lightning_module := lightning_module self |}.

(** The message of a [MisconfigurationException]. *)
Definition message_of (e : exn) : string :=
  match e with
  | MisconfigurationException msg => msg
  | _ => ""
  end.

(** ** Sample objects *)

Module Sample.
Definition trainer : pyobj := PyObj 1 ["Trainer"; "object"].
Definition weight : pyobj := PyObj 10 ["Parameter"; "Tensor"; "object"].
Definition bias : pyobj := PyObj 11 ["Parameter"; "Tensor"; "object"].
Definition model : LightningModule :=
  {| module_obj := PyObj 2 ["BoringModel"; "LightningModule"; "Module"; "object"];
     parameters := [weight; bias] |}.
Definition optimizer : pyobj := PyObj 3 ["SGD"; "Optimizer"; "object"].
Definition other_optimizer : pyobj := PyObj 6 ["Adam"; "Optimizer"; "object"].
Definition closure : value := VObj (PyObj 4 ["function"; "object"]).
Definition other_closure : value := VObj (PyObj 5 ["function"; "object"]).

Definition full_precision : pyobj := PyObj 20 ["PrecisionPlugin"; "object"].
Definition native_amp : pyobj :=
  PyObj 21 ["NativeMixedPrecisionPlugin"; "MixedPrecisionPlugin"; "PrecisionPlugin"; "object"].
Definition tpu_spawn : pyobj :=
  PyObj 30 ["TPUSpawnPlugin"; "DDPSpawnPlugin"; "ParallelPlugin"; "TrainingTypePlugin"; "object"].
Definition single_tpu : pyobj :=
  PyObj 31 ["SingleTPUPlugin"; "SingleDevicePlugin"; "TrainingTypePlugin"; "object"].
Definition ddp : pyobj :=
  PyObj 32 ["DDPPlugin"; "ParallelPlugin"; "TrainingTypePlugin"; "object"].

Definition accelerator (precision strategy : pyobj) : TPUAccelerator :=
  {| precision_plugin := precision;
     training_type_plugin := strategy;
     lightning_module := model |}.

Definition one_and_a_half : spec_float := Eval vm_compute in Prim2SF 1.5%float.
Definition huge : Z := 2 ^ 1024.

(** Collaborators that return [None] and count the calls they served. *)
Definition quiet (c : ext_call) (w : nat) : (exn + value) * nat :=
  (inr VNone, S w).

(** Collaborators that raise a [RuntimeError] on every call, and
    collaborators that return a number (a loss, a total norm). *)
Definition runtime_error : exn :=
  ForeignError (PyObj 40 ["RuntimeError"; "Exception"; "BaseException"; "object"]).
Definition failing (c : ext_call) (w : nat) : (exn + value) * nat :=
  (inl runtime_error, S w).
Definition talkative (c : ext_call) (w : nat) : (exn + value) * nat :=
  (inr (VFloat one_and_a_half), S w).
End Sample.

(** * Properties *)

(** ** Programs and runs *)

Lemma run_Ret {World R : Type} (env : ext_call -> World -> (exn + value) * World)
    (r : R) (w : World) :
  run env (Ret r) w = (inr r, w, []).
Proof. reflexivity. Qed.

Lemma run_Raise {World R : Type} (env : ext_call -> World -> (exn + value) * World)
    (e : exn) (w : World) :
  run env (Raise e : prog R) w = (inl e, w, []).
Proof. reflexivity. Qed.

(** A single call whose value is handed back: the run is what the
    collaborator answers, and the trace is that call alone. *)
Lemma run_call {World : Type} (env : ext_call -> World -> (exn + value) * World)
    (c : ext_call) (w : World) :
  run env (call c) w = (fst (env c w), snd (env c w), [c]).
Proof.
  unfold call. simpl. destruct (env c w) as [[e | v] w']; reflexivity.
Qed.

(** A single call whose value is dropped for [None]. *)
Lemma run_call_None {World : Type} (env : ext_call -> World -> (exn + value) * World)
    (c : ext_call) (w : World) :
  run env (call c ;; mret VNone) w =
    (match fst (env c w) with inl e => inl e | inr _ => inr VNone end,
     snd (env c w), [c]).
Proof.
  simpl. destruct (env c w) as [[e | v] w']; reflexivity.
Qed.

(** ** [setup] *)

(** The three ways through [setup], by the two tests. *)
Lemma setup_mixed (self : TPUAccelerator) (trainer : pyobj) (model : LightningModule) :
  mixed_precision self = true ->
  setup self trainer model = Raise (MisconfigurationException amp_message).
Proof.
  unfold mixed_precision, setup. intros ->. reflexivity.
Qed.

Lemma setup_unsupported (self : TPUAccelerator) (trainer : pyobj) (model : LightningModule) :
  mixed_precision self = false ->
  supported_strategy self = false ->
  setup self trainer model = Raise (MisconfigurationException strategy_message).
Proof.
  unfold mixed_precision, supported_strategy, setup. intros -> ->. reflexivity.
Qed.

Lemma setup_delegates (self : TPUAccelerator) (trainer : pyobj) (model : LightningModule) :
  mixed_precision self = false ->
  supported_strategy self = true ->
  setup self trainer model = call (Accelerator_setup self trainer model).
Proof.
  unfold mixed_precision, supported_strategy, setup. intros -> ->. reflexivity.
Qed.

Lemma messages_differ : amp_message <> strategy_message.
Proof. discriminate. Qed.

(** The run of [setup], by the two tests: a rejected configuration ends
    at once, in the world it started in; an accepted one is the run of the
    base [Accelerator.setup]. *)
Lemma run_setup {World : Type} (env : ext_call -> World -> (exn + value) * World)
    (w : World) (self : TPUAccelerator) (trainer : pyobj) (model : LightningModule) :
  run env (setup self trainer model) w =
    if mixed_precision self then (inl (MisconfigurationException amp_message), w, [])
    else if supported_strategy self then
      (fst (env (Accelerator_setup self trainer model) w),
       snd (env (Accelerator_setup self trainer model) w),
       [Accelerator_setup self trainer model])
    else (inl (MisconfigurationException strategy_message), w, []).
Proof.
  destruct (mixed_precision self) eqn:Hm.
  - rewrite (setup_mixed _ _ _ Hm). reflexivity.
  - destruct (supported_strategy self) eqn:Hs.
    + rewrite (setup_delegates _ _ _ Hm Hs). apply run_call.
    + rewrite (setup_unsupported _ _ _ Hm Hs). reflexivity.
Qed.

(** The two exceptions of [setup] are told apart by their messages,
    also as the exception of a program and as the result of a run. *)
Lemma own_exceptions_differ :
  Some (MisconfigurationException strategy_message)
    <> Some (MisconfigurationException amp_message).
Proof.
  intros H. apply messages_differ. symmetry.
  exact (f_equal (fun o : option exn =>
                    match o with Some e => message_of e | None => "" end) H).
Qed.

Lemma results_differ :
  (inl (MisconfigurationException strategy_message) : exn + value)
    <> inl (MisconfigurationException amp_message).
Proof.
  intros H. apply messages_differ. symmetry.
  exact (f_equal (fun r : exn + value =>
                    match r with inl e => message_of e | inr _ => "" end) H).
Qed.

(** C1, as the specification words it, fails: with full precision and a
    DDP strategy [setup] raises a [MisconfigurationException] although the
    precision plugin is not a mixed-precision one. *)
Lemma setup_raises_without_mixed_precision :
  ~ (raises_MisconfigurationException
       (setup (Sample.accelerator Sample.full_precision Sample.ddp)
              Sample.trainer Sample.model) = true
     <-> mixed_precision (Sample.accelerator Sample.full_precision Sample.ddp) = true).
Proof.
  intros [H _]. specialize (H eq_refl). vm_compute in H. discriminate H.
Qed.

(** C1 (amended): for every precision plugin and every training-type
    plugin, [setup] raises a [MisconfigurationException] of its own, before
    any call leaves the class, if and only if the precision plugin is a
    [MixedPrecisionPlugin] or the training-type plugin is neither a
    [SingleTPUPlugin] nor a [TPUSpawnPlugin]; the exception it raises is
    the one about AMP if and only if the precision plugin is a
    [MixedPrecisionPlugin], whatever the training-type plugin.  At the
    level of runs, for every behaviour of the base [Accelerator.setup]:
    the run ends in a [MisconfigurationException] with no call made in
    exactly those cases, and it ends in a [MisconfigurationException] at
    all in exactly those cases and the one where the base
    [Accelerator.setup], once delegated to, raises it. *)
Theorem setup_raises_iff_mixed_precision
    (self : TPUAccelerator) (trainer : pyobj) (model : LightningModule) :
  (raises_MisconfigurationException (setup self trainer model) = true
   <-> mixed_precision self = true \/ supported_strategy self = false)
  /\ (own_exception (setup self trainer model)
        = Some (MisconfigurationException amp_message)
      <-> mixed_precision self = true)
  /\ (forall (World : Type) (env : ext_call -> World -> (exn + value) * World) (w : World),
        ((exists msg, result (run env (setup self trainer model) w)
                      = inl (MisconfigurationException msg))
         /\ trace (run env (setup self trainer model) w) = []
         <-> mixed_precision self = true \/ supported_strategy self = false)
        /\ (result (run env (setup self trainer model) w)
              = inl (MisconfigurationException amp_message)
            /\ trace (run env (setup self trainer model) w) = []
            <-> mixed_precision self = true)
        /\ ((exists msg, result (run env (setup self trainer model) w)
                         = inl (MisconfigurationException msg))
            <-> mixed_precision self = true \/ supported_strategy self = false
                \/ exists msg, fst (env (Accelerator_setup self trainer model) w)
                               = inl (MisconfigurationException msg))).
Proof.
  split; [| split].
  - destruct (mixed_precision self) eqn:Hm.
    + rewrite (setup_mixed _ _ _ Hm). simpl. tauto.
    + destruct (supported_strategy self) eqn:Hs.
      * rewrite (setup_delegates _ _ _ Hm Hs). simpl.
        split; [discriminate | intros [H | H]; discriminate H].
      * rewrite (setup_unsupported _ _ _ Hm Hs). simpl. tauto.
  - destruct (mixed_precision self) eqn:Hm.
    + rewrite (setup_mixed _ _ _ Hm). simpl. tauto.
    + destruct (supported_strategy self) eqn:Hs.
      * rewrite (setup_delegates _ _ _ Hm Hs). simpl. split; discriminate.
      * rewrite (setup_unsupported _ _ _ Hm Hs). simpl.
        split; [| discriminate].
        intros H. destruct (own_exceptions_differ H).
  - intros World env w. rewrite run_setup.
    destruct (mixed_precision self) eqn:Hm; [| destruct (supported_strategy self) eqn:Hs];
      unfold result, trace; simpl.
    + split; [| split].
      * split; [intros _; left; reflexivity | intros _; split; [eauto | reflexivity]].
      * split; [reflexivity | intros _; split; reflexivity].
      * split; [intros _; left; reflexivity | intros _; eauto].
    + split; [| split].
      * split; [intros [_ H]; discriminate H | intros [H | H]; discriminate H].
      * split; [intros [_ H]; discriminate H | discriminate].
      * split; [intros H; right; right; exact H |].
        intros [H | [H | H]]; [discriminate H | discriminate H | exact H].
    + split; [| split].
      * split; [intros _; right; reflexivity | intros _; split; [eauto | reflexivity]].
      * split; [| discriminate].
        intros [H _]. destruct (results_differ H).
      * split; [intros _; right; left; reflexivity | intros _; eauto].
Qed.

(** A mixed-precision plugin with an unsupported strategy: [setup] raises. *)
Lemma setup_raises_iff_mixed_precision_witness :
  mixed_precision (Sample.accelerator Sample.native_amp Sample.ddp) = true
  /\ raises_MisconfigurationException
       (setup (Sample.accelerator Sample.native_amp Sample.ddp)
              Sample.trainer Sample.model) = true
  /\ own_exception
       (setup (Sample.accelerator Sample.native_amp Sample.ddp)
              Sample.trainer Sample.model)
     = Some (MisconfigurationException amp_message).
Proof.
  split; [reflexivity |].
  destruct (setup_raises_iff_mixed_precision
              (Sample.accelerator Sample.native_amp Sample.ddp)
              Sample.trainer Sample.model) as (H1 & H2 & _).
  split; [apply H1; left; reflexivity | apply H2; reflexivity].
Defined.

(** C2, as the specification words it, fails: with a mixed-precision
    plugin [setup] raises a [MisconfigurationException] although the
    training-type plugin is a [SingleTPUPlugin]. *)
Lemma setup_raises_with_supported_strategy :
  ~ (raises_MisconfigurationException
       (setup (Sample.accelerator Sample.native_amp Sample.single_tpu)
              Sample.trainer Sample.model) = true
     <-> supported_strategy (Sample.accelerator Sample.native_amp Sample.single_tpu) = false).
Proof.
  intros [H _]. specialize (H eq_refl). vm_compute in H. discriminate H.
Qed.

(** C2 (amended): for every training-type plugin and every precision
    plugin, [setup] raises a [MisconfigurationException] of its own, before
    any call leaves the class, if and only if the training-type plugin is
    neither a [SingleTPUPlugin] nor a [TPUSpawnPlugin] or the precision
    plugin is a [MixedPrecisionPlugin]; the exception it raises is the one
    about the strategy if and only if the training-type plugin is not a
    supported one and the precision plugin is not a [MixedPrecisionPlugin]
    (for a [MixedPrecisionPlugin] the one about AMP comes first).  At the
    level of runs, for every behaviour of the base [Accelerator.setup]:
    the run ends in a [MisconfigurationException] with no call made in
    exactly those cases, and it ends in a [MisconfigurationException] at
    all in exactly those cases and the one where the base
    [Accelerator.setup], once delegated to, raises it. *)
Theorem setup_raises_iff_unsupported_strategy
    (self : TPUAccelerator) (trainer : pyobj) (model : LightningModule) :
  (raises_MisconfigurationException (setup self trainer model) = true
   <-> supported_strategy self = false \/ mixed_precision self = true)
  /\ (own_exception (setup self trainer model)
        = Some (MisconfigurationException strategy_message)
      <-> supported_strategy self = false /\ mixed_precision self = false)
  /\ (forall (World : Type) (env : ext_call -> World -> (exn + value) * World) (w : World),
        ((exists msg, result (run env (setup self trainer model) w)
                      = inl (MisconfigurationException msg))
         /\ trace (run env (setup self trainer model) w) = []
         <-> supported_strategy self = false \/ mixed_precision self = true)
        /\ (result (run env (setup self trainer model) w)
              = inl (MisconfigurationException strategy_message)
            /\ trace (run env (setup self trainer model) w) = []
            <-> supported_strategy self = false /\ mixed_precision self = false)
        /\ ((exists msg, result (run env (setup self trainer model) w)
                         = inl (MisconfigurationException msg))
            <-> supported_strategy self = false \/ mixed_precision self = true
                \/ exists msg, fst (env (Accelerator_setup self trainer model) w)
                               = inl (MisconfigurationException msg))).
Proof.
  split; [| split].
  - destruct (mixed_precision self) eqn:Hm.
    + rewrite (setup_mixed _ _ _ Hm). simpl. tauto.
    + destruct (supported_strategy self) eqn:Hs.
      * rewrite (setup_delegates _ _ _ Hm Hs). simpl.
        split; [discriminate | intros [H | H]; discriminate H].
      * rewrite (setup_unsupported _ _ _ Hm Hs). simpl. tauto.
  - destruct (mixed_precision self) eqn:Hm.
    + rewrite (setup_mixed _ _ _ Hm). simpl.
      split; [| intros [_ H]; discriminate H].
      intros H. destruct (own_exceptions_differ (eq_sym H)).
    + destruct (supported_strategy self) eqn:Hs.
      * rewrite (setup_delegates _ _ _ Hm Hs). simpl.
        split; [discriminate | intros [H _]; discriminate H].
      * rewrite (setup_unsupported _ _ _ Hm Hs). simpl. tauto.
  - intros World env w. rewrite run_setup.
    destruct (mixed_precision self) eqn:Hm; [| destruct (supported_strategy self) eqn:Hs];
      unfold result, trace; simpl.
    + split; [| split].
      * split; [intros _; right; reflexivity | intros _; split; [eauto | reflexivity]].
      * split; [| intros [_ H]; discriminate H].
        intros [H _]. destruct (results_differ (eq_sym H)).
      * split; [intros _; right; left; reflexivity | intros _; eauto].
    + split; [| split].
      * split; [intros [_ H]; discriminate H | intros [H | H]; discriminate H].
      * split; [intros [_ H]; discriminate H | intros [H _]; discriminate H].
      * split; [intros H; right; right; exact H |].
        intros [H | [H | H]]; [discriminate H | discriminate H | exact H].
    + split; [| split].
      * split; [intros _; left; reflexivity | intros _; split; [eauto | reflexivity]].
      * split; [intros _; split; reflexivity | intros _; split; reflexivity].
      * split; [intros _; left; reflexivity | intros _; eauto].
Qed.

(** An unsupported strategy with a mixed-precision plugin: [setup] raises,
    and what it raises is not the exception about the strategy. *)
Lemma setup_raises_iff_unsupported_strategy_witness :
  supported_strategy (Sample.accelerator Sample.native_amp Sample.ddp) = false
  /\ raises_MisconfigurationException
       (setup (Sample.accelerator Sample.native_amp Sample.ddp)
              Sample.trainer Sample.model) = true
  /\ own_exception
       (setup (Sample.accelerator Sample.native_amp Sample.ddp)
              Sample.trainer Sample.model)
     <> Some (MisconfigurationException strategy_message).
Proof.
  split; [reflexivity |].
  destruct (setup_raises_iff_unsupported_strategy
              (Sample.accelerator Sample.native_amp Sample.ddp)
              Sample.trainer Sample.model) as (H1 & H2 & _).
  split; [apply H1; left; reflexivity |].
  intros H. apply H2 in H. destruct H as [_ H]. discriminate H.
Defined.

(** C7: the mixed-precision test comes first.  When the precision plugin
    is a [MixedPrecisionPlugin] and the training-type plugin is not a
    supported one, the exception raised is the one about AMP, not the one
    about the strategy; nothing after the failing test has a part in it:
    the outcome is the same whatever training-type plugin is assigned, and
    no call leaves the class. *)
Theorem setup_checks_in_order
    (self : TPUAccelerator) (trainer : pyobj) (model : LightningModule) :
  mixed_precision self = true ->
  supported_strategy self = false ->
  setup self trainer model = Raise (MisconfigurationException amp_message)
  /\ setup self trainer model <> Raise (MisconfigurationException strategy_message)
  /\ (forall strategy : pyobj,
        setup (with_strategy self strategy) trainer model = setup self trainer model)
  /\ (forall (World : Type) (env : ext_call -> World -> (exn + value) * World) (w : World),
        run env (setup self trainer model) w =
          (inl (MisconfigurationException amp_message), w, [])).
Proof.
  intros Hm _. rewrite (setup_mixed _ _ _ Hm). repeat split.
  - intros H. apply messages_differ.
    exact (f_equal (fun p : prog value =>
                      match p with
                      | Raise (MisconfigurationException msg) => msg
                      | _ => amp_message
                      end) H).
  - intros strategy. apply setup_mixed. exact Hm.
Qed.

Lemma setup_checks_in_order_witness :
  mixed_precision (Sample.accelerator Sample.native_amp Sample.ddp) = true
  /\ supported_strategy (Sample.accelerator Sample.native_amp Sample.ddp) = false
  /\ setup (Sample.accelerator Sample.native_amp Sample.ddp) Sample.trainer Sample.model
     = Raise (MisconfigurationException amp_message).
Proof.
  split; [reflexivity | split; [reflexivity |]].
  apply (setup_checks_in_order
           (Sample.accelerator Sample.native_amp Sample.ddp) Sample.trainer Sample.model);
    reflexivity.
Defined.

(** C8: when the precision plugin is not a [MixedPrecisionPlugin] and the
    training-type plugin is a [SingleTPUPlugin] or a [TPUSpawnPlugin],
    [setup] raises nothing of its own and is one call of the base
    [Accelerator.setup] with the same trainer and model, whose outcome it
    hands back. *)
Theorem setup_delegates_once
    (self : TPUAccelerator) (trainer : pyobj) (model : LightningModule) :
  mixed_precision self = false ->
  supported_strategy self = true ->
  setup self trainer model = call (Accelerator_setup self trainer model)
  /\ raises_MisconfigurationException (setup self trainer model) = false
  /\ (forall (World : Type) (env : ext_call -> World -> (exn + value) * World) (w : World),
        let o := run env (setup self trainer model) w in
        trace o = [Accelerator_setup self trainer model]
        /\ count is_Accelerator_setup (trace o) = 1%nat
        /\ result o = fst (env (Accelerator_setup self trainer model) w)
        /\ final o = snd (env (Accelerator_setup self trainer model) w)).
Proof.
  intros Hm Hs. rewrite (setup_delegates _ _ _ Hm Hs).
  split; [reflexivity | split; [reflexivity |]].
  intros World env w. rewrite run_call. simpl. repeat split.
Qed.

Lemma setup_delegates_once_witness :
  mixed_precision (Sample.accelerator Sample.full_precision Sample.tpu_spawn) = false
  /\ supported_strategy (Sample.accelerator Sample.full_precision Sample.tpu_spawn) = true
  /\ setup (Sample.accelerator Sample.full_precision Sample.tpu_spawn)
           Sample.trainer Sample.model
     = call (Accelerator_setup (Sample.accelerator Sample.full_precision Sample.tpu_spawn)
                               Sample.trainer Sample.model).
Proof.
  split; [reflexivity | split; [reflexivity |]].
  apply (setup_delegates_once
           (Sample.accelerator Sample.full_precision Sample.tpu_spawn)
           Sample.trainer Sample.model); reflexivity.
Defined.

(** ** [run_optimizer_step] *)

(** The bundle handed to [xm.optimizer_step]. *)
Lemma dict_unpack_lookup (d kw : gmap string value) (k : string) :
  dict_unpack d kw !! k =
    match kw !! k with
    | Some v => Some v
    | None => d !! k
    end.
Proof.
  unfold dict_unpack. destruct (kw !! k) as [v |] eqn:Hk.
  - apply lookup_union_Some_l. exact Hk.
  - apply lookup_union_r. exact Hk.
Qed.

Lemma run_optimizer_step_unfold (self : TPUAccelerator) (optimizer : pyobj)
    (optimizer_idx : Z) (lambda_closure : value) (kwargs : gmap string value) :
  run_optimizer_step self optimizer optimizer_idx lambda_closure kwargs =
    (call (xm_optimizer_step optimizer false
             (dict_unpack {[ "closure" := lambda_closure ]} kwargs)) ;; mret VNone).
Proof. reflexivity. Qed.





(** C9: [optimizer_idx] plays no part in [run_optimizer_step]: two calls
    that differ in it alone are the same program, and make the same call
    of [xm.optimizer_step]. *)
Theorem run_optimizer_step_ignores_index (self : TPUAccelerator) (optimizer : pyobj)
    (idx1 idx2 : Z) (lambda_closure : value) (kwargs : gmap string value) :
  run_optimizer_step self optimizer idx1 lambda_closure kwargs
    = run_optimizer_step self optimizer idx2 lambda_closure kwargs
  /\ (forall (World : Type) (env : ext_call -> World -> (exn + value) * World) (w : World),
        trace (run env (run_optimizer_step self optimizer idx1 lambda_closure kwargs) w)
          = [xm_optimizer_step optimizer false
               (dict_unpack {[ "closure" := lambda_closure ]} kwargs)]
        /\ run env (run_optimizer_step self optimizer idx1 lambda_closure kwargs) w
           = run env (run_optimizer_step self optimizer idx2 lambda_closure kwargs) w).
Proof.
  split; [reflexivity |].
  intros World env w. rewrite !run_optimizer_step_unfold, run_call_None.
  split; reflexivity.
Qed.

(** ** Floats *)

(** Rounding a positive integer never gives zero or a NaN: the lemmas
    below follow the Standard Library's [binary_round] through its two
    right shifts. *)
Section Rounding.
Variables prc emx : Z.
Hypothesis prc_pos : 0 < prc.

Lemma digits2_pos_size (p : positive) : digits2_pos p = Pos.size p.
Proof. induction p as [p IH | p IH |]; simpl; congruence. Qed.

(** A mantissa of [d] binary digits is at least [2 ^ (d - 1)]. *)
Lemma digits2_pos_lower (p : positive) :
  2 ^ (Z.pos (digits2_pos p) - 1) <= Z.pos p.
Proof.
  rewrite digits2_pos_size.
  pose proof (Pos.size_le p) as H.
  apply Pos2Z.pos_le_pos in H. rewrite Pos2Z.inj_pow in H.
  replace (Z.pos (Pos.size p)) with (Z.pos (Pos.size p) - 1 + 1) in H by lia.
  rewrite Z.pow_add_r in H by lia.
  change (Z.pos p~0) with (2 * Z.pos p) in H. lia.
Qed.

Lemma shr_1_m (r : shr_record) :
  0 <= shr_m r -> shr_m (shr_1 r) = Z.shiftr (shr_m r) 1.
Proof.
  rewrite <- Z.div2_spec.
  destruct r as [[| [p | p |] | p] b s]; simpl; intros H; try reflexivity; lia.
Qed.

Lemma iter_shr_1_m (n : positive) (r : shr_record) :
  0 <= shr_m r -> shr_m (SpecFloat.iter_pos shr_1 n r) = Z.shiftr (shr_m r) (Z.pos n).
Proof.
  revert r. induction n as [n IH | n IH |]; intros r Hr; simpl SpecFloat.iter_pos.
  - assert (H1 : 0 <= shr_m (shr_1 r))
      by (rewrite shr_1_m by exact Hr; apply Z.shiftr_nonneg; exact Hr).
    assert (H2 : 0 <= shr_m (SpecFloat.iter_pos shr_1 n (shr_1 r)))
      by (rewrite IH by exact H1; apply Z.shiftr_nonneg; exact H1).
    rewrite IH by exact H2. rewrite IH by exact H1. rewrite shr_1_m by exact Hr.
    rewrite !Z.shiftr_shiftr by lia. f_equal. lia.
  - assert (H1 : 0 <= shr_m (SpecFloat.iter_pos shr_1 n r))
      by (rewrite IH by exact Hr; apply Z.shiftr_nonneg; exact Hr).
    rewrite IH by exact H1. rewrite IH by exact Hr.
    rewrite Z.shiftr_shiftr by lia. f_equal. lia.
  - apply shr_1_m. exact Hr.
Qed.

(** At an exponent not below [emin], the shift that brings a mantissa to
    its format drops fewer bits than the mantissa has: what is left is
    positive, and the new exponent is not below [emin] either. *)
Lemma shr_fexp_positive (m : positive) (e : Z) (l : location) :
  SpecFloat.emin prc emx <= e ->
  0 < shr_m (fst (shr_fexp prc emx (Z.pos m) e l))
  /\ SpecFloat.emin prc emx <= snd (shr_fexp prc emx (Z.pos m) e l).
Proof.
  intros He. unfold shr_fexp, shr. simpl Zdigits2.
  assert (Hm : shr_m (shr_record_of_loc (Z.pos m) l) = Z.pos m)
    by (destruct l as [| []]; reflexivity).
  set (r := shr_record_of_loc (Z.pos m) l) in *.
  assert (Hn : fexp prc emx (Z.pos (digits2_pos m) + e) - e < Z.pos (digits2_pos m))
    by (unfold fexp; lia).
  assert (He' : SpecFloat.emin prc emx
                <= e + (fexp prc emx (Z.pos (digits2_pos m) + e) - e))
    by (unfold fexp; lia).
  destruct (fexp prc emx (Z.pos (digits2_pos m) + e) - e) as [| n | n] eqn:En; simpl.
  - rewrite Hm. lia.
  - split; [| exact He'].
    rewrite iter_shr_1_m by (rewrite Hm; lia). rewrite Hm.
    rewrite Z.shiftr_div_pow2 by lia.
    apply Z.div_str_pos. split; [lia |].
    pose proof (digits2_pos_lower m) as Hl.
    assert (2 ^ Z.pos n <= 2 ^ (Z.pos (digits2_pos m) - 1))
      by (apply Z.pow_le_mono_r; lia).
    lia.
  - rewrite Hm. lia.
Qed.

Lemma round_nearest_even_positive (m : Z) (l : location) :
  0 < m -> 0 < round_nearest_even m l.
Proof.
  intros Hm. destruct l as [| []]; simpl; try lia.
  destruct (Z.even m); lia.
Qed.

Lemma binary_round_aux_positive (sx : bool) (m : positive) (e : Z) (l : location) :
  SpecFloat.emin prc emx <= e ->
  binary_round_aux prc emx sx (Z.pos m) e l = S754_infinity sx
  \/ exists m' e', binary_round_aux prc emx sx (Z.pos m) e l = S754_finite sx m' e'.
Proof.
  intros He. unfold binary_round_aux.
  destruct (shr_fexp_positive m e l He) as [H1 H1e].
  destruct (shr_fexp prc emx (Z.pos m) e l) as [mrs' e'] eqn:E1. simpl in H1, H1e.
  pose proof (round_nearest_even_positive (shr_m mrs') (loc_of_shr_record mrs') H1) as H2.
  destruct (round_nearest_even (shr_m mrs') (loc_of_shr_record mrs')) as [| m2 | m2] eqn:E2;
    try lia.
  destruct (shr_fexp_positive m2 e' loc_Exact H1e) as [H3 _].
  destruct (shr_fexp prc emx (Z.pos m2) e' loc_Exact) as [mrs'' e''] eqn:E3. simpl in H3.
  destruct (shr_m mrs'') as [| m3 | m3]; try lia.
  destruct (e'' <=? emx - prc); [right; eauto | left; reflexivity].
Qed.

(** Rounding [m * 2 ^ e], [m] positive and [e] not below [emin], gives a
    finite float or an infinity of the sign asked for. *)
Lemma binary_round_positive (sx : bool) (m : positive) (e : Z) :
  SpecFloat.emin prc emx <= e ->
  binary_round prc emx sx m e = S754_infinity sx
  \/ exists m' e', binary_round prc emx sx m e = S754_finite sx m' e'.
Proof.
  intros He. unfold binary_round, shl_align.
  destruct (fexp prc emx (Z.pos (digits2_pos m) + e) - e) as [| d | d] eqn:Ed.
  - apply binary_round_aux_positive. exact He.
  - apply binary_round_aux_positive. exact He.
  - apply binary_round_aux_positive. unfold fexp. lia.
Qed.
End Rounding.

(** [float] of a number ends at once: it returns or it raises. *)
Lemma py_float_cases (n : number) :
  (exists f, py_float n = Ret f) \/ (exists e, py_float n = Raise e).
Proof.
  destruct n as [z | f]; simpl; [| left; eauto].
  destruct (binary_normalize prec emax z 0 false); eauto.
Qed.

(** [float] of a float never raises. *)
Lemma py_float_float (f : spec_float) : py_float (NFloat f) = Ret f.
Proof. reflexivity. Qed.

(** The integers 3 and 0 convert; [2 ^ 1024] does not. *)
Example py_float_three :
  py_float (NInt 3) = Ret (S754_finite false 6755399441055744 (-51)).
Proof. reflexivity. Qed.

Example py_float_int_zero : py_float (NInt 0) = Ret float_zero.
Proof. reflexivity. Qed.

Example py_float_huge :
  py_float (NInt Sample.huge) = Raise (OverflowError "int too large to convert to float").
Proof. vm_compute. reflexivity. Qed.

(** A positive integer that [float] converts is a float above zero. *)
Lemma py_float_int_positive (z : Z) (f : spec_float) :
  0 < z -> py_float (NInt z) = Ret f -> float_le f float_zero = false.
Proof.
  intros Hz. destruct z as [| p | p]; try lia. simpl.
  assert (He : SpecFloat.emin prec emax <= 0) by (vm_compute; discriminate).
  destruct (binary_round_positive prec emax eq_refl false p 0 He) as [H | (m & e & H)];
    rewrite H; [discriminate |].
  intros Hf. injection Hf as <-. reflexivity.
Qed.

(** A float above zero is not at most zero. *)
Lemma float_gt0_not_le0 (f : spec_float) :
  float_lt float_zero f = true -> float_le f float_zero = false.
Proof.
  destruct f as [[] | [] | | [] m e]; simpl; intros H; try reflexivity; discriminate H.
Qed.

Lemma py_float_gt0 (n : number) (f : spec_float) :
  number_gt0 n = true -> py_float n = Ret f -> float_le f float_zero = false.
Proof.
  destruct n as [z | g]; simpl number_gt0; intros Hn Hf.
  - apply (py_float_int_positive z); [lia | exact Hf].
  - simpl in Hf. injection Hf as <-. apply float_gt0_not_le0. exact Hn.
Qed.

(** The source's literal [2.0] is the integer 2, rounded. *)
Example float_two_value : float_two = binary_normalize prec emax 2 0 false.
Proof. reflexivity. Qed.

(** ** [clip_gradients] *)

Lemma clip_gradients_norm (self : TPUAccelerator) (optimizer : pyobj) (clip_val : number) :
  clip_gradients self optimizer clip_val NORM
    = _clip_gradients_norm self clip_val norm_type_default.
Proof. reflexivity. Qed.

Lemma clip_gradients_not_norm (self : TPUAccelerator) (optimizer : pyobj)
    (clip_val : number) (algorithm : GradClipAlgorithmType) :
  algorithm <> NORM ->
  clip_gradients self optimizer clip_val algorithm = Raise NotImplementedError.
Proof.
  intros Ha. unfold clip_gradients. destruct (decide (algorithm = NORM)); [contradiction | reflexivity].
Qed.

(** The three ways through [_clip_gradients_norm], by what [float] gives. *)
Lemma _clip_gradients_norm_raises (self : TPUAccelerator) (clip_val : number)
    (norm_type : spec_float) (e : exn) :
  py_float clip_val = Raise e ->
  _clip_gradients_norm self clip_val norm_type = Raise e.
Proof. unfold _clip_gradients_norm. intros ->. reflexivity. Qed.

Lemma _clip_gradients_norm_disabled (self : TPUAccelerator) (clip_val : number)
    (norm_type f : spec_float) :
  py_float clip_val = Ret f ->
  float_le f float_zero = true ->
  _clip_gradients_norm self clip_val norm_type = Ret VNone.
Proof. unfold _clip_gradients_norm. intros -> H. simpl. rewrite H. reflexivity. Qed.

Lemma _clip_gradients_norm_clips (self : TPUAccelerator) (clip_val : number)
    (norm_type f : spec_float) :
  py_float clip_val = Ret f ->
  float_le f float_zero = false ->
  _clip_gradients_norm self clip_val norm_type
    = (call (xla_clip_grad_norm_ (parameters (lightning_module self)) f norm_type) ;;
       mret VNone).
Proof. unfold _clip_gradients_norm. intros -> H. simpl. rewrite H. reflexivity. Qed.

(** Whatever its arguments, [clip_gradients] makes no call, or the one
    call of [xla_clip_grad_norm_] with the default norm order. *)
Lemma clip_gradients_trace {World : Type}
    (env : ext_call -> World -> (exn + value) * World) (w : World)
    (self : TPUAccelerator) (optimizer : pyobj) (clip_val : number)
    (algorithm : GradClipAlgorithmType) :
  trace (run env (clip_gradients self optimizer clip_val algorithm) w) = []
  \/ exists f, py_float clip_val = Ret f
       /\ trace (run env (clip_gradients self optimizer clip_val algorithm) w)
          = [xla_clip_grad_norm_ (parameters (lightning_module self)) f norm_type_default].
Proof.
  destruct (decide (algorithm = NORM)) as [-> | Ha].
  - rewrite clip_gradients_norm.
    destruct (py_float_cases clip_val) as [[f Hf] | [e He]].
    + destruct (float_le f float_zero) eqn:Hle.
      * rewrite (_clip_gradients_norm_disabled _ _ _ _ Hf Hle). left. reflexivity.
      * rewrite (_clip_gradients_norm_clips _ _ _ _ Hf Hle), run_call_None.
        right. exists f. split; [exact Hf | reflexivity].
    + rewrite (_clip_gradients_norm_raises _ _ _ _ He). left. reflexivity.
  - rewrite (clip_gradients_not_norm _ _ _ _ Ha). left. reflexivity.
Qed.

(** C3, as the specification words it, fails: the integer [2 ^ 1024] is
    above zero, but [float] raises [OverflowError] on it, so that
    [xla_clip_grad_norm_] is not called. *)
Lemma clip_gradients_overflow :
  number_gt0 (NInt Sample.huge) = true
  /\ ~ clips_norm_once
         (clip_gradients (Sample.accelerator Sample.full_precision Sample.tpu_spawn)
            Sample.optimizer (NInt Sample.huge) NORM)
         (parameters (lightning_module
                        (Sample.accelerator Sample.full_precision Sample.tpu_spawn)))
         (NInt Sample.huge).
Proof.
  split; [reflexivity |].
  intros (f & Hf & _). vm_compute in Hf. discriminate Hf.
Qed.

(** C3 (amended): for every [clip_value > 0] that [float] converts (every
    float, and every integer that does not overflow a float),
    [clip_gradients] with algorithm NORM calls [xla_clip_grad_norm_]
    exactly once, on the parameters of the attached module, with
    [max_norm = float(clip_value)] and [norm_type = 2.0]. *)
Theorem clip_gradients_norm_clips_once (self : TPUAccelerator) (optimizer : pyobj)
    (clip_val : number) (f : spec_float) :
  number_gt0 clip_val = true ->
  py_float clip_val = Ret f ->
  clips_norm_once (clip_gradients self optimizer clip_val NORM)
    (parameters (lightning_module self)) clip_val
  /\ (forall (World : Type) (env : ext_call -> World -> (exn + value) * World) (w : World),
        trace (run env (clip_gradients self optimizer clip_val NORM) w)
          = [xla_clip_grad_norm_ (parameters (lightning_module self)) f float_two]
        /\ count is_xla_clip_grad_norm_
             (trace (run env (clip_gradients self optimizer clip_val NORM) w)) = 1%nat).
Proof.
  intros Hgt Hf.
  pose proof (py_float_gt0 _ _ Hgt Hf) as Hle.
  rewrite clip_gradients_norm, (_clip_gradients_norm_clips _ _ _ _ Hf Hle).
  split.
  - exists f. split; [exact Hf | reflexivity].
  - intros World env w. rewrite run_call_None. split; reflexivity.
Qed.

Lemma clip_gradients_norm_clips_once_witness :
  number_gt0 (NFloat Sample.one_and_a_half) = true
  /\ py_float (NFloat Sample.one_and_a_half) = Ret Sample.one_and_a_half
  /\ clips_norm_once
       (clip_gradients (Sample.accelerator Sample.full_precision Sample.tpu_spawn)
          Sample.optimizer (NFloat Sample.one_and_a_half) NORM)
       [Sample.weight; Sample.bias] (NFloat Sample.one_and_a_half).
Proof.
  split; [reflexivity | split; [reflexivity |]].
  apply (clip_gradients_norm_clips_once
           (Sample.accelerator Sample.full_precision Sample.tpu_spawn)
           Sample.optimizer (NFloat Sample.one_and_a_half) Sample.one_and_a_half);
    reflexivity.
Defined.

(** C4: for every [clip_value] whose float conversion is at most zero,
    [clip_gradients] with algorithm NORM returns [None]: it calls nothing,
    [xla_clip_grad_norm_] in particular, and the world it ends in, with
    its parameters and gradients, is the one it started in. *)
Theorem clip_gradients_nonpositive_noop (self : TPUAccelerator) (optimizer : pyobj)
    (clip_val : number) (f : spec_float) :
  py_float clip_val = Ret f ->
  float_le f float_zero = true ->
  clip_gradients self optimizer clip_val NORM = Ret VNone
  /\ (forall (World : Type) (env : ext_call -> World -> (exn + value) * World) (w : World),
        run env (clip_gradients self optimizer clip_val NORM) w = (inr VNone, w, [])).
Proof.
  intros Hf Hle.
  rewrite clip_gradients_norm, (_clip_gradients_norm_disabled _ _ _ _ Hf Hle).
  split; [reflexivity | intros World env w; reflexivity].
Qed.

Lemma clip_gradients_nonpositive_noop_witness :
  py_float (NFloat float_zero) = Ret float_zero
  /\ float_le float_zero float_zero = true
  /\ clip_gradients (Sample.accelerator Sample.full_precision Sample.tpu_spawn)
       Sample.optimizer (NFloat float_zero) NORM = Ret VNone.
Proof.
  split; [reflexivity | split; [reflexivity |]].
  apply (clip_gradients_nonpositive_noop
           (Sample.accelerator Sample.full_precision Sample.tpu_spawn)
           Sample.optimizer (NFloat float_zero) float_zero); reflexivity.
Defined.

(** C5: for every algorithm other than NORM, VALUE among them,
    [clip_gradients] raises [NotImplementedError]: it calls nothing,
    [xla_clip_grad_norm_] in particular, and leaves the world, with its
    parameters and gradients, as it was. *)
Theorem clip_gradients_value_not_implemented (self : TPUAccelerator) (optimizer : pyobj)
    (clip_val : number) (algorithm : GradClipAlgorithmType) :
  algorithm <> NORM ->
  clip_gradients self optimizer clip_val algorithm = Raise NotImplementedError
  /\ (forall (World : Type) (env : ext_call -> World -> (exn + value) * World) (w : World),
        run env (clip_gradients self optimizer clip_val algorithm) w
          = (inl NotImplementedError, w, [])).
Proof.
  intros Ha. rewrite (clip_gradients_not_norm _ _ _ _ Ha).
  split; [reflexivity | intros World env w; reflexivity].
Qed.

Lemma clip_gradients_value_not_implemented_witness :
  VALUE <> NORM
  /\ clip_gradients (Sample.accelerator Sample.full_precision Sample.tpu_spawn)
       Sample.optimizer (NFloat Sample.one_and_a_half) VALUE = Raise NotImplementedError.
Proof.
  split; [discriminate |].
  apply (clip_gradients_value_not_implemented
           (Sample.accelerator Sample.full_precision Sample.tpu_spawn)
           Sample.optimizer (NFloat Sample.one_and_a_half) VALUE).
  discriminate.
Defined.

(** C10: through [clip_gradients] the norm order that reaches
    [xla_clip_grad_norm_] is always 2.0: whatever the optimizer, the
    threshold, the algorithm and the collaborators, every call of
    [xla_clip_grad_norm_] in the trace has [norm_type = 2.0]. *)
Theorem clip_gradients_norm_type_two {World : Type}
    (env : ext_call -> World -> (exn + value) * World) (w : World)
    (self : TPUAccelerator) (optimizer : pyobj) (clip_val : number)
    (algorithm : GradClipAlgorithmType)
    (params : list pyobj) (max_norm norm_type : spec_float) :
  xla_clip_grad_norm_ params max_norm norm_type
    ∈ trace (run env (clip_gradients self optimizer clip_val algorithm) w) ->
  norm_type = float_two.
Proof.
  destruct (clip_gradients_trace env w self optimizer clip_val algorithm)
    as [-> | (f & _ & ->)]; intros Hin.
  - apply elem_of_nil in Hin. contradiction.
  - apply list_elem_of_singleton in Hin. injection Hin as _ _ ->. reflexivity.
Qed.

Lemma clip_gradients_norm_type_two_witness :
  xla_clip_grad_norm_ [Sample.weight; Sample.bias] Sample.one_and_a_half float_two
    ∈ trace (run Sample.quiet
               (clip_gradients (Sample.accelerator Sample.full_precision Sample.tpu_spawn)
                  Sample.optimizer (NFloat Sample.one_and_a_half) NORM) 0%nat)
  /\ float_two = float_two.
Proof.
  assert (H : xla_clip_grad_norm_ [Sample.weight; Sample.bias] Sample.one_and_a_half float_two
                ∈ trace (run Sample.quiet
                           (clip_gradients
                              (Sample.accelerator Sample.full_precision Sample.tpu_spawn)
                              Sample.optimizer (NFloat Sample.one_and_a_half) NORM) 0%nat))
    by (apply list_elem_of_singleton; reflexivity).
  split; [exact H |].
  exact (clip_gradients_norm_type_two Sample.quiet 0%nat _ _ _ _ _ _ _ H).
Defined.

(** * Further properties of the three operations *)

(** ** [setup], whole *)

(** X1: [setup] rejects a configuration exactly when the precision plugin is
    a [MixedPrecisionPlugin] or the training-type plugin is neither a
    [SingleTPUPlugin] nor a [TPUSpawnPlugin]. *)
Theorem setup_rejects_iff
    (self : TPUAccelerator) (trainer : pyobj) (model : LightningModule) :
  raises_MisconfigurationException (setup self trainer model) = true
  <-> mixed_precision self = true \/ supported_strategy self = false.
Proof.
  destruct (mixed_precision self) eqn:Hm.
  - rewrite (setup_mixed _ _ _ Hm). simpl. tauto.
  - destruct (supported_strategy self) eqn:Hs.
    + rewrite (setup_delegates _ _ _ Hm Hs). simpl.
      split; [discriminate | intros [H | H]; discriminate H].
    + rewrite (setup_unsupported _ _ _ Hm Hs). simpl. tauto.
Qed.

(** X2: which exception [setup] raises: the one about AMP exactly for a
    [MixedPrecisionPlugin], the one about the strategy exactly when the
    precision plugin passes and the training-type plugin does not; it
    raises no other of its own. *)
Theorem setup_own_exception
    (self : TPUAccelerator) (trainer : pyobj) (model : LightningModule) :
  own_exception (setup self trainer model) =
    if mixed_precision self then Some (MisconfigurationException amp_message)
    else if supported_strategy self then None
    else Some (MisconfigurationException strategy_message).
Proof.
  destruct (mixed_precision self) eqn:Hm.
  - rewrite (setup_mixed _ _ _ Hm). reflexivity.
  - destruct (supported_strategy self) eqn:Hs.
    + rewrite (setup_delegates _ _ _ Hm Hs). reflexivity.
    + rewrite (setup_unsupported _ _ _ Hm Hs). reflexivity.
Qed.

(** X3: a configuration that [setup] rejects never reaches the base
    [Accelerator.setup]: no call is made and the world stays as it was. *)
Theorem setup_rejected_calls_nothing {World : Type}
    (env : ext_call -> World -> (exn + value) * World) (w : World)
    (self : TPUAccelerator) (trainer : pyobj) (model : LightningModule) :
  mixed_precision self = true \/ supported_strategy self = false ->
  trace (run env (setup self trainer model) w) = []
  /\ final (run env (setup self trainer model) w) = w
  /\ exists msg, result (run env (setup self trainer model) w)
                 = inl (MisconfigurationException msg).
Proof.
  intros H. destruct (mixed_precision self) eqn:Hm.
  - rewrite (setup_mixed _ _ _ Hm). simpl. eauto.
  - destruct H as [H | Hs]; [discriminate H |].
    rewrite (setup_unsupported _ _ _ Hm Hs). simpl. eauto.
Qed.

Lemma setup_rejected_calls_nothing_witness :
  (mixed_precision (Sample.accelerator Sample.full_precision Sample.ddp) = true
   \/ supported_strategy (Sample.accelerator Sample.full_precision Sample.ddp) = false)
  /\ trace (run Sample.quiet
              (setup (Sample.accelerator Sample.full_precision Sample.ddp)
                     Sample.trainer Sample.model) 0%nat) = [].
Proof.
  split; [right; reflexivity |].
  apply (setup_rejected_calls_nothing Sample.quiet 0%nat
           (Sample.accelerator Sample.full_precision Sample.ddp)
           Sample.trainer Sample.model).
  right. reflexivity.
Defined.

(** X4: whatever the configuration, [setup] calls nothing but the base
    [Accelerator.setup], and that at most once. *)
Theorem setup_calls_base_only {World : Type}
    (env : ext_call -> World -> (exn + value) * World) (w : World)
    (self : TPUAccelerator) (trainer : pyobj) (model : LightningModule) :
  (count is_Accelerator_setup (trace (run env (setup self trainer model) w)) <= 1)%nat
  /\ count is_xm_optimizer_step (trace (run env (setup self trainer model) w)) = 0%nat
  /\ count is_xla_clip_grad_norm_ (trace (run env (setup self trainer model) w)) = 0%nat.
Proof.
  destruct (mixed_precision self) eqn:Hm.
  - rewrite (setup_mixed _ _ _ Hm). simpl. repeat split. unfold count. simpl. lia.
  - destruct (supported_strategy self) eqn:Hs.
    + rewrite (setup_delegates _ _ _ Hm Hs), run_call. simpl. repeat split.
      unfold count. simpl. lia.
    + rewrite (setup_unsupported _ _ _ Hm Hs). simpl. repeat split. unfold count. simpl. lia.
Qed.

(** ** [run_optimizer_step], whole *)

(** X5: what [run_optimizer_step] hands back: an exception of
    [xm.optimizer_step] comes out unchanged, and a value it returns (the
    loss of the closure) is dropped for [None]; the world is the one
    [xm.optimizer_step] left. *)
Theorem run_optimizer_step_outcome {World : Type}
    (env : ext_call -> World -> (exn + value) * World) (w : World)
    (self : TPUAccelerator) (optimizer : pyobj) (optimizer_idx : Z)
    (lambda_closure : value) (kwargs : gmap string value) :
  result (run env (run_optimizer_step self optimizer optimizer_idx lambda_closure kwargs) w)
    = match fst (env (xm_optimizer_step optimizer false
                        (dict_unpack {[ "closure" := lambda_closure ]} kwargs)) w) with
      | inl e => inl e
      | inr _ => inr VNone
      end
  /\ final (run env (run_optimizer_step self optimizer optimizer_idx lambda_closure kwargs) w)
     = snd (env (xm_optimizer_step optimizer false
                   (dict_unpack {[ "closure" := lambda_closure ]} kwargs)) w).
Proof.
  rewrite run_optimizer_step_unfold, run_call_None. split; reflexivity.
Qed.

(** X6: every extra keyword argument reaches [xm.optimizer_step] with its own
    value, whatever its name; the bundle has the keys of [kwargs] and the
    key [closure], and no other. *)
Theorem run_optimizer_step_forwards_kwargs {World : Type}
    (env : ext_call -> World -> (exn + value) * World) (w : World)
    (self : TPUAccelerator) (optimizer : pyobj) (optimizer_idx : Z)
    (lambda_closure : value) (kwargs : gmap string value) :
  exists optimizer_args : gmap string value,
    trace (run env (run_optimizer_step self optimizer optimizer_idx lambda_closure kwargs) w)
      = [xm_optimizer_step optimizer false optimizer_args]
    /\ kwargs ⊆ optimizer_args
    /\ dom optimizer_args = {[ "closure" ]} ∪ dom kwargs
    /\ is_Some (optimizer_args !! "closure").
Proof.
  exists (dict_unpack {[ "closure" := lambda_closure ]} kwargs).
  rewrite run_optimizer_step_unfold, run_call_None. simpl.
  split; [reflexivity | split; [| split]].
  - unfold dict_unpack. apply map_union_subseteq_l.
  - unfold dict_unpack. rewrite dom_union_L, dom_singleton_L. apply (comm_L (∪)).
  - rewrite dict_unpack_lookup.
    destruct (kwargs !! "closure") as [v |]; [eauto |].
    rewrite lookup_singleton_eq. eauto.
Qed.

(** X7: an extra keyword argument named [closure] takes the place of
    [lambda_closure]: the bundle is [kwargs] itself, and the step does not
    depend on [lambda_closure] any more. *)
Theorem run_optimizer_step_closure_keyword
    (self : TPUAccelerator) (optimizer : pyobj) (optimizer_idx : Z)
    (lambda_closure : value) (kwargs : gmap string value) (v : value) :
  kwargs !! "closure" = Some v ->
  run_optimizer_step self optimizer optimizer_idx lambda_closure kwargs
    = (call (xm_optimizer_step optimizer false kwargs) ;; mret VNone)
  /\ (forall other : value,
        run_optimizer_step self optimizer optimizer_idx other kwargs
          = run_optimizer_step self optimizer optimizer_idx lambda_closure kwargs).
Proof.
  intros Hk.
  assert (Hd : forall c : value, dict_unpack {[ "closure" := c ]} kwargs = kwargs).
  { intros c. unfold dict_unpack. apply map_eq. intros k.
    destruct (kwargs !! k) as [x |] eqn:Hx.
    - apply lookup_union_Some_l. exact Hx.
    - rewrite lookup_union_r by exact Hx.
      apply lookup_singleton_ne. intros <-. rewrite Hk in Hx. discriminate Hx. }
  split.
  - rewrite run_optimizer_step_unfold, Hd. reflexivity.
  - intros other. rewrite !run_optimizer_step_unfold, !Hd. reflexivity.
Qed.

Lemma run_optimizer_step_closure_keyword_witness :
  ({[ "closure" := Sample.other_closure ]} : gmap string value) !! "closure"
    = Some Sample.other_closure
  /\ run_optimizer_step (Sample.accelerator Sample.full_precision Sample.tpu_spawn)
       Sample.optimizer 0 Sample.closure {[ "closure" := Sample.other_closure ]}
     = (call (xm_optimizer_step Sample.optimizer false
                {[ "closure" := Sample.other_closure ]}) ;; mret VNone).
Proof.
  split; [reflexivity |].
  apply (run_optimizer_step_closure_keyword
           (Sample.accelerator Sample.full_precision Sample.tpu_spawn)
           Sample.optimizer 0 Sample.closure {[ "closure" := Sample.other_closure ]}
           Sample.other_closure).
  reflexivity.
Defined.

(** ** Floats: integers that convert, and integers that convert exactly *)

(** The lemmas below bound the exponent that [binary_round] ends with,
    to tell when the conversion of an integer does not overflow, and when
    it loses no bit. *)
Section Exactness.
Variables prc emx : Z.
Hypothesis prc_pos : 0 < prc.

Lemma digits2_pos_upper (p : positive) : Z.pos p < 2 ^ Z.pos (digits2_pos p).
Proof.
  rewrite digits2_pos_size. pose proof (Pos.size_gt p) as H.
  apply Pos2Z.pos_lt_pos in H. rewrite Pos2Z.inj_pow in H. exact H.
Qed.

Lemma digits2_pos_le (p : positive) (k : Z) :
  Z.pos p < 2 ^ k -> Z.pos (digits2_pos p) <= k.
Proof.
  intros H. pose proof (digits2_pos_lower p) as Hl.
  assert (Hk : 0 <= k).
  { destruct (Z.le_gt_cases 0 k) as [Hk | Hk]; [exact Hk |].
    rewrite Z.pow_neg_r in H by lia. lia. }
  assert (Hlt : 2 ^ (Z.pos (digits2_pos p) - 1) < 2 ^ k) by lia.
  apply Z.pow_lt_mono_r_iff in Hlt; lia.
Qed.

(** What [shr_fexp] does to a positive mantissa: it drops the [n] low
    bits, [n] being what the format asks for, or none when [n <= 0]. *)
Lemma shr_fexp_m (m : positive) (e : Z) (l : location) :
  let n := Z.max 0 (fexp prc emx (Z.pos (digits2_pos m) + e) - e) in
  shr_m (fst (shr_fexp prc emx (Z.pos m) e l)) = Z.pos m / 2 ^ n
  /\ snd (shr_fexp prc emx (Z.pos m) e l) = e + n.
Proof.
  unfold shr_fexp, shr. simpl Zdigits2.
  assert (Hm : shr_m (shr_record_of_loc (Z.pos m) l) = Z.pos m)
    by (destruct l as [| []]; reflexivity).
  set (r := shr_record_of_loc (Z.pos m) l) in *.
  destruct (fexp prc emx (Z.pos (digits2_pos m) + e) - e) as [| n | n] eqn:En; simpl.
  - rewrite Hm, Z.div_1_r. lia.
  - rewrite iter_shr_1_m by (rewrite Hm; lia). rewrite Hm.
    rewrite Z.shiftr_div_pow2 by lia. split; reflexivity.
  - rewrite Hm, Z.div_1_r. lia.
Qed.

Lemma shr_fexp_exact_id (m : positive) (e : Z) :
  fexp prc emx (Z.pos (digits2_pos m) + e) <= e ->
  shr_fexp prc emx (Z.pos m) e loc_Exact = (Build_shr_record (Z.pos m) false false, e).
Proof.
  intros H. unfold shr_fexp, shr. simpl Zdigits2.
  destruct (fexp prc emx (Z.pos (digits2_pos m) + e) - e) as [| n | n] eqn:En;
    try reflexivity; lia.
Qed.

Lemma binary_round_aux_exact_id (sx : bool) (m : positive) (e : Z) :
  fexp prc emx (Z.pos (digits2_pos m) + e) <= e ->
  e <= emx - prc ->
  binary_round_aux prc emx sx (Z.pos m) e loc_Exact = S754_finite sx m e.
Proof.
  intros H He. unfold binary_round_aux.
  rewrite (shr_fexp_exact_id m e H). simpl.
  rewrite (shr_fexp_exact_id m e H). simpl.
  apply Z.leb_le in He. rewrite He. reflexivity.
Qed.


Lemma round_nearest_even_bounds (m : Z) (l : location) :
  m <= round_nearest_even m l <= m + 1.
Proof.
  destruct l as [| []]; simpl; try lia. destruct (Z.even m); lia.
Qed.

Lemma iter_xO_shift (m d : positive) : Z.pos (Pos.iter xO m d) = Z.pos m * 2 ^ Z.pos d.
Proof.
  rewrite <- Z.shiftl_mul_pow2 by lia. simpl.
  apply (Pos.iter_swap_gen _ _ Z.pos xO (Z.mul 2)). reflexivity.
Qed.

(** Rounding an exact positive mantissa below [2 ^ k], [k + e < emax],
    does not overflow. *)
Lemma binary_round_aux_finite (sx : bool) (m : positive) (e k : Z) :
  SpecFloat.emin prc emx <= e <= emx - prc ->
  SpecFloat.emin prc emx < emx - prc ->
  Z.pos m < 2 ^ k ->
  k + e < emx ->
  exists m' e', binary_round_aux prc emx sx (Z.pos m) e loc_Exact = S754_finite sx m' e'.
Proof.
  intros He Hfmt Hk Hke.
  pose proof (digits2_pos_le m k Hk) as Hd.
  destruct (Z.le_gt_cases (fexp prc emx (Z.pos (digits2_pos m) + e)) e) as [Hn | Hn].
  { exists m, e. apply binary_round_aux_exact_id; lia. }
  unfold binary_round_aux.
  destruct (shr_fexp_m m e loc_Exact) as [Hm1 He1].
  destruct (shr_fexp_positive prc emx prc_pos m e loc_Exact) as [Hp1 He1']; [lia |].
  destruct (shr_fexp prc emx (Z.pos m) e loc_Exact) as [mrs' e'] eqn:E1.
  cbn [fst snd] in Hm1, He1, Hp1, He1'.
  pose proof (round_nearest_even_bounds (shr_m mrs') (loc_of_shr_record mrs')) as Hr.
  destruct (round_nearest_even (shr_m mrs') (loc_of_shr_record mrs')) as [| m2 | m2] eqn:E2;
    try lia.
  destruct (shr_fexp_m m2 e' loc_Exact) as [_ He2].
  destruct (shr_fexp_positive prc emx prc_pos m2 e' loc_Exact He1') as [Hp2 _].
  destruct (shr_fexp prc emx (Z.pos m2) e' loc_Exact) as [mrs'' e''] eqn:E3.
  cbn [fst snd] in He2, Hp2.
  destruct (shr_m mrs'') as [| m3 | m3]; try lia.
  assert (Hle : e'' <= emx - prc).
  { set (d := Z.pos (digits2_pos m)) in *.
    set (n := fexp prc emx (d + e) - e) in *.
    assert (Hnd : n < d) by (unfold n, fexp; lia).
    assert (Hn0 : 0 < n) by (unfold n; lia).
    rewrite Z.max_r in Hm1, He1 by lia.
    assert (Hm1u : shr_m mrs' < 2 ^ (d - n)).
    { rewrite Hm1. apply Z.div_lt_upper_bound; [apply Z.pow_pos_nonneg; lia |].
      rewrite <- Z.pow_add_r by lia. replace (n + (d - n)) with d by lia.
      apply digits2_pos_upper. }
    assert (Hm2u : Z.pos m2 < 2 ^ (d - n + 1)).
    { rewrite Z.pow_add_r by lia. lia. }
    pose proof (digits2_pos_le m2 _ Hm2u) as Hd2.
    unfold fexp in He2. unfold n, fexp in He1. unfold n, fexp in Hd2. unfold fexp in Hn.
    lia. }
  apply Z.leb_le in Hle. rewrite Hle. eauto.
Qed.

Lemma binary_round_finite (sx : bool) (m : positive) (e k : Z) :
  SpecFloat.emin prc emx <= e <= emx - prc ->
  SpecFloat.emin prc emx < emx - prc ->
  Z.pos m < 2 ^ k ->
  k + e < emx ->
  exists m' e', binary_round prc emx sx m e = S754_finite sx m' e'.
Proof.
  intros He Hfmt Hk Hke. unfold binary_round, shl_align.
  assert (H0k : 0 <= k).
  { destruct (Z.le_gt_cases 0 k) as [H | H]; [exact H |].
    rewrite Z.pow_neg_r in Hk by lia. lia. }
  destruct (fexp prc emx (Z.pos (digits2_pos m) + e) - e) as [| d | d] eqn:Ed.
  - apply (binary_round_aux_finite sx m e k); assumption.
  - apply (binary_round_aux_finite sx m e k); assumption.
  - apply (binary_round_aux_finite sx _ _ (k + Z.pos d)).
    + unfold fexp in *. lia.
    + exact Hfmt.
    + rewrite iter_xO_shift, Z.pow_add_r by lia.
      apply Z.mul_lt_mono_pos_r; [apply Z.pow_pos_nonneg; lia | exact Hk].
    + lia.
Qed.

(** A mantissa that fits the format is kept bit for bit: the float
    denotes [m * 2 ^ e] exactly. *)
Lemma binary_round_exact (sx : bool) (m : positive) (e : Z) :
  fexp prc emx (Z.pos (digits2_pos m) + e) <= e ->
  e <= emx - prc ->
  exists m' e', binary_round prc emx sx m e = S754_finite sx m' e'
                /\ e' <= e /\ Z.pos m' = Z.pos m * 2 ^ (e - e').
Proof.
  intros Hn He. unfold binary_round, shl_align.
  destruct (fexp prc emx (Z.pos (digits2_pos m) + e) - e) as [| d | d] eqn:Ed.
  - exists m, e. rewrite binary_round_aux_exact_id by lia.
    rewrite Z.sub_diag. simpl. split; [reflexivity | lia].
  - lia.
  - exists (Pos.iter xO m d), (fexp prc emx (Z.pos (digits2_pos m) + e)).
    assert (Hz : Z.pos (Pos.iter xO m d) = Z.pos m * 2 ^ Z.pos d) by apply iter_xO_shift.
    rewrite binary_round_aux_exact_id.
    + split; [reflexivity | split; [lia |]].
      rewrite Hz. f_equal. f_equal. lia.
    + assert (Hu : Z.pos (Pos.iter xO m d) < 2 ^ (Z.pos (digits2_pos m) + Z.pos d)).
      { rewrite Hz, Z.pow_add_r by lia.
        apply Z.mul_lt_mono_pos_r; [apply Z.pow_pos_nonneg; lia | apply digits2_pos_upper]. }
      apply digits2_pos_le in Hu. unfold fexp in *. lia.
    + lia.
Qed.
End Exactness.

(** The binary64 format, in the numbers the lemmas above ask for. *)
Lemma binary64_format :
  SpecFloat.emin prec emax <= 0 <= emax - prec
  /\ SpecFloat.emin prec emax < emax - prec
  /\ 1023 + 0 < emax.
Proof. vm_compute. repeat split; discriminate. Qed.

(** [float] converts every integer of magnitude below [2 ^ 1023], zero
    apart, to a finite float of its sign. *)
Lemma py_float_int_converts (z : Z) :
  z <> 0 -> - 2 ^ 1023 < z < 2 ^ 1023 ->
  exists m e, py_float (NInt z) = Ret (S754_finite (z <? 0) m e).
Proof.
  intros Hz Hb. destruct binary64_format as (He & Hfmt & Hk).
  destruct z as [| p | p]; [contradiction | |]; simpl.
  - destruct (binary_round_finite prec emax eq_refl false p 0 1023 He Hfmt) as (m & e & H);
      [lia | exact Hk |].
    rewrite H. eauto.
  - destruct (binary_round_finite prec emax eq_refl true p 0 1023 He Hfmt) as (m & e & H);
      [lia | exact Hk |].
    rewrite H. eauto.
Qed.

(** Below [2 ^ 53] the conversion is exact: the float [m * 2 ^ e] it
    gives has [e <= 0] and [m = z * 2 ^ (- e)]. *)
Lemma py_float_int_exact (z : Z) :
  0 < z < 2 ^ 53 ->
  exists m e, py_float (NInt z) = Ret (S754_finite false m e)
              /\ e <= 0 /\ Z.pos m = z * 2 ^ (- e).
Proof.
  intros Hb. destruct z as [| p | p]; try lia. simpl.
  pose proof (digits2_pos_le p 53 (proj2 Hb)) as Hd.
  destruct (binary_round_exact prec emax false p 0) as (m & e & H & He & Hm).
  - unfold fexp, SpecFloat.emin, prec, emax. lia.
  - vm_compute. discriminate.
  - rewrite H. exists m, e. split; [reflexivity | split; [exact He |]].
    rewrite Hm. f_equal.
Qed.


(** [float] raises on integers alone, with [OverflowError], and only on
    those of magnitude [2 ^ 1023] and more. *)
Lemma py_float_raises (n : number) (e : exn) :
  py_float n = Raise e ->
  exists z, n = NInt z
            /\ (z <= - 2 ^ 1023 \/ 2 ^ 1023 <= z)
            /\ e = OverflowError "int too large to convert to float".
Proof.
  destruct n as [z | f]; [| discriminate].
  intros H. exists z. split; [reflexivity |].
  assert (Hb : z <= - 2 ^ 1023 \/ 2 ^ 1023 <= z).
  { destruct (Z.le_gt_cases z (- 2 ^ 1023)) as [Hl | Hl]; [left; exact Hl |].
    destruct (Z.le_gt_cases (2 ^ 1023) z) as [Hu | Hu]; [right; exact Hu |].
    exfalso. destruct (Z.eq_dec z 0) as [-> | Hz]; [discriminate H |].
    destruct (py_float_int_converts z Hz) as (m & x & Hc); [split; assumption |].
    rewrite Hc in H. discriminate H. }
  split; [exact Hb |].
  simpl in H. destruct (binary_normalize prec emax z 0 false); try discriminate H.
  injection H as <-. reflexivity.
Qed.

(** A float is not at most zero exactly when it is above zero or a NaN. *)
Lemma float_not_le0 (f : spec_float) :
  float_le f float_zero = false <-> float_lt float_zero f = true \/ f = S754_nan.
Proof.
  destruct f as [[] | [] | | [] m e]; simpl; split; intros H;
    try reflexivity; try discriminate H; try (left; reflexivity); try (right; reflexivity);
    destruct H as [H | H]; discriminate H.
Qed.

(** ** [clip_gradients], whole *)

(** X8: every integer threshold above zero and below [2 ^ 1023] clips: the
    conversion does not overflow, and [xla_clip_grad_norm_] is called once
    with a finite, positive [max_norm]. *)
Theorem clip_gradients_int_clips_once {World : Type}
    (env : ext_call -> World -> (exn + value) * World) (w : World)
    (self : TPUAccelerator) (optimizer : pyobj) (z : Z) :
  0 < z < 2 ^ 1023 ->
  exists m e,
    py_float (NInt z) = Ret (S754_finite false m e)
    /\ trace (run env (clip_gradients self optimizer (NInt z) NORM) w)
       = [xla_clip_grad_norm_ (parameters (lightning_module self))
            (S754_finite false m e) float_two].
Proof.
  intros Hz.
  destruct (py_float_int_converts z) as (m & e & Hf); [lia | lia |].
  replace (z <? 0) with false in Hf by (symmetry; apply Z.ltb_ge; lia).
  exists m, e. split; [exact Hf |].
  rewrite clip_gradients_norm, (_clip_gradients_norm_clips _ _ _ _ Hf eq_refl), run_call_None.
  reflexivity.
Qed.

Lemma clip_gradients_int_clips_once_witness :
  0 < 3 < 2 ^ 1023
  /\ exists m e,
       py_float (NInt 3) = Ret (S754_finite false m e)
       /\ trace (run Sample.quiet
                   (clip_gradients (Sample.accelerator Sample.full_precision Sample.tpu_spawn)
                      Sample.optimizer (NInt 3) NORM) 0%nat)
          = [xla_clip_grad_norm_
               (parameters (lightning_module
                              (Sample.accelerator Sample.full_precision Sample.tpu_spawn)))
               (S754_finite false m e) float_two].
Proof.
  split; [split; reflexivity |].
  apply (clip_gradients_int_clips_once Sample.quiet 0%nat
           (Sample.accelerator Sample.full_precision Sample.tpu_spawn) Sample.optimizer 3).
  split; reflexivity.
Defined.

(** X9: an integer threshold above zero and below [2 ^ 53] reaches
    [xla_clip_grad_norm_] exactly: [max_norm] is the float [m * 2 ^ e]
    with [e <= 0] and [m = z * 2 ^ (- e)]. *)
Theorem clip_gradients_int_exact
    (self : TPUAccelerator) (optimizer : pyobj) (z : Z) :
  0 < z < 2 ^ 53 ->
  exists m e,
    clip_gradients self optimizer (NInt z) NORM
      = (call (xla_clip_grad_norm_ (parameters (lightning_module self))
                 (S754_finite false m e) float_two) ;; mret VNone)
    /\ e <= 0
    /\ Z.pos m = z * 2 ^ (- e).
Proof.
  intros Hz. destruct (py_float_int_exact z Hz) as (m & e & Hf & He & Hm).
  exists m, e. split; [| split; assumption].
  rewrite clip_gradients_norm. apply (_clip_gradients_norm_clips _ _ _ _ Hf eq_refl).
Qed.

Lemma clip_gradients_int_exact_witness :
  0 < 3 < 2 ^ 53
  /\ exists m e,
       clip_gradients (Sample.accelerator Sample.full_precision Sample.tpu_spawn)
         Sample.optimizer (NInt 3) NORM
         = (call (xla_clip_grad_norm_
                    (parameters (lightning_module
                                   (Sample.accelerator Sample.full_precision Sample.tpu_spawn)))
                    (S754_finite false m e) float_two) ;; mret VNone)
       /\ e <= 0
       /\ Z.pos m = 3 * 2 ^ (- e).
Proof.
  split; [split; reflexivity |].
  apply (clip_gradients_int_exact
           (Sample.accelerator Sample.full_precision Sample.tpu_spawn) Sample.optimizer 3).
  split; reflexivity.
Defined.



(** X11: when the threshold converts, [xla_clip_grad_norm_] is called exactly
    for a float above zero and for a NaN: a NaN is not [<= 0], so that it
    passes the guard and is handed on as [max_norm]. *)
Theorem clip_gradients_clips_iff {World : Type}
    (env : ext_call -> World -> (exn + value) * World) (w : World)
    (self : TPUAccelerator) (optimizer : pyobj) (clip_val : number) (f : spec_float) :
  py_float clip_val = Ret f ->
  (trace (run env (clip_gradients self optimizer clip_val NORM) w)
     = [xla_clip_grad_norm_ (parameters (lightning_module self)) f float_two]
   <-> float_lt float_zero f = true \/ f = S754_nan).
Proof.
  intros Hf. rewrite <- float_not_le0, clip_gradients_norm.
  destruct (float_le f float_zero) eqn:Hle.
  - rewrite (_clip_gradients_norm_disabled _ _ _ _ Hf Hle). simpl.
    split; discriminate.
  - rewrite (_clip_gradients_norm_clips _ _ _ _ Hf Hle), run_call_None. simpl.
    split; reflexivity.
Qed.

Lemma clip_gradients_clips_iff_witness :
  py_float (NFloat S754_nan) = Ret S754_nan
  /\ (trace (run Sample.quiet
               (clip_gradients (Sample.accelerator Sample.full_precision Sample.tpu_spawn)
                  Sample.optimizer (NFloat S754_nan) NORM) 0%nat)
        = [xla_clip_grad_norm_
             (parameters (lightning_module
                            (Sample.accelerator Sample.full_precision Sample.tpu_spawn)))
             S754_nan float_two]
      <-> float_lt float_zero S754_nan = true \/ S754_nan = S754_nan).
Proof.
  split; [reflexivity |].
  apply (clip_gradients_clips_iff Sample.quiet 0%nat
           (Sample.accelerator Sample.full_precision Sample.tpu_spawn)
           Sample.optimizer (NFloat S754_nan) S754_nan).
  reflexivity.
Defined.

(** X12: what a clipping [clip_gradients] hands back: an exception of
    [xla_clip_grad_norm_] comes out unchanged, and the total norm it
    returns is dropped for [None]; the world is the one
    [xla_clip_grad_norm_] left. *)
Theorem clip_gradients_outcome {World : Type}
    (env : ext_call -> World -> (exn + value) * World) (w : World)
    (self : TPUAccelerator) (optimizer : pyobj) (clip_val : number) (f : spec_float) :
  py_float clip_val = Ret f ->
  float_le f float_zero = false ->
  result (run env (clip_gradients self optimizer clip_val NORM) w)
    = match fst (env (xla_clip_grad_norm_ (parameters (lightning_module self))
                        f float_two) w) with
      | inl e => inl e
      | inr _ => inr VNone
      end
  /\ final (run env (clip_gradients self optimizer clip_val NORM) w)
     = snd (env (xla_clip_grad_norm_ (parameters (lightning_module self)) f float_two) w).
Proof.
  intros Hf Hle.
  rewrite clip_gradients_norm, (_clip_gradients_norm_clips _ _ _ _ Hf Hle), run_call_None.
  split; reflexivity.
Qed.

Lemma clip_gradients_outcome_witness :
  py_float (NFloat Sample.one_and_a_half) = Ret Sample.one_and_a_half
  /\ float_le Sample.one_and_a_half float_zero = false
  /\ result (run Sample.failing
               (clip_gradients (Sample.accelerator Sample.full_precision Sample.tpu_spawn)
                  Sample.optimizer (NFloat Sample.one_and_a_half) NORM) 0%nat)
     = inl Sample.runtime_error.
Proof.
  split; [reflexivity | split; [reflexivity |]].
  apply (clip_gradients_outcome Sample.failing 0%nat
           (Sample.accelerator Sample.full_precision Sample.tpu_spawn)
           Sample.optimizer (NFloat Sample.one_and_a_half) Sample.one_and_a_half);
    reflexivity.
Defined.

(** X13: the exceptions [clip_gradients] raises of its own are
    [NotImplementedError], for an algorithm other than NORM, and the
    [OverflowError] of [float], for NORM and an integer threshold of
    magnitude [2 ^ 1023] or more; it raises no other. *)
Theorem clip_gradients_own_exception
    (self : TPUAccelerator) (optimizer : pyobj) (clip_val : number)
    (algorithm : GradClipAlgorithmType) (e : exn) :
  own_exception (clip_gradients self optimizer clip_val algorithm) = Some e ->
  (algorithm <> NORM /\ e = NotImplementedError)
  \/ (algorithm = NORM
      /\ e = OverflowError "int too large to convert to float"
      /\ exists z, clip_val = NInt z /\ (z <= - 2 ^ 1023 \/ 2 ^ 1023 <= z)).
Proof.
  destruct (decide (algorithm = NORM)) as [-> | Ha].
  - rewrite clip_gradients_norm. intros H. right. split; [reflexivity |].
    destruct (py_float_cases clip_val) as [[f Hf] | [x Hx]].
    + destruct (float_le f float_zero) eqn:Hle.
      * rewrite (_clip_gradients_norm_disabled _ _ _ _ Hf Hle) in H. discriminate H.
      * rewrite (_clip_gradients_norm_clips _ _ _ _ Hf Hle) in H. discriminate H.
    + rewrite (_clip_gradients_norm_raises _ _ _ _ Hx) in H. injection H as <-.
      destruct (py_float_raises _ _ Hx) as (z & Hz & Hb & He). eauto.
  - rewrite (clip_gradients_not_norm _ _ _ _ Ha). intros H. injection H as <-.
    left. split; [exact Ha | reflexivity].
Qed.

Lemma clip_gradients_own_exception_witness :
  own_exception
    (clip_gradients (Sample.accelerator Sample.full_precision Sample.tpu_spawn)
       Sample.optimizer (NInt Sample.huge) NORM)
    = Some (OverflowError "int too large to convert to float")
  /\ ((NORM <> NORM /\ OverflowError "int too large to convert to float" = NotImplementedError)
      \/ (NORM = NORM
          /\ OverflowError "int too large to convert to float"
             = OverflowError "int too large to convert to float"
          /\ exists z, NInt Sample.huge = NInt z /\ (z <= - 2 ^ 1023 \/ 2 ^ 1023 <= z))).
Proof.
  assert (H : own_exception
                (clip_gradients (Sample.accelerator Sample.full_precision Sample.tpu_spawn)
                   Sample.optimizer (NInt Sample.huge) NORM)
              = Some (OverflowError "int too large to convert to float"))
    by (vm_compute; reflexivity).
  split; [exact H |].
  exact (clip_gradients_own_exception _ _ _ _ _ H).
Defined.

(** X14: [clip_gradients] reads the parameters of the attached module and
    nothing else of the accelerator, and not the optimizer: with the same
    parameters it is the same program for any plugins and any optimizer. *)
Theorem clip_gradients_reads_parameters_only
    (self other : TPUAccelerator) (optimizer optimizer' : pyobj) (clip_val : number)
    (algorithm : GradClipAlgorithmType) :
  parameters (lightning_module self) = parameters (lightning_module other) ->
  clip_gradients self optimizer clip_val algorithm
    = clip_gradients other optimizer' clip_val algorithm.
Proof.
  intros H. unfold clip_gradients, _clip_gradients_norm. rewrite H. reflexivity.
Qed.

Lemma clip_gradients_reads_parameters_only_witness :
  parameters (lightning_module (Sample.accelerator Sample.full_precision Sample.tpu_spawn))
    = parameters (lightning_module (Sample.accelerator Sample.native_amp Sample.ddp))
  /\ clip_gradients (Sample.accelerator Sample.full_precision Sample.tpu_spawn)
       Sample.optimizer (NFloat Sample.one_and_a_half) NORM
     = clip_gradients (Sample.accelerator Sample.native_amp Sample.ddp)
         Sample.other_optimizer (NFloat Sample.one_and_a_half) NORM.
Proof.
  split; [reflexivity |].
  apply (clip_gradients_reads_parameters_only
           (Sample.accelerator Sample.full_precision Sample.tpu_spawn)
           (Sample.accelerator Sample.native_amp Sample.ddp)).
  reflexivity.
Defined.

(** X15: whatever its arguments, [clip_gradients] calls [xla_clip_grad_norm_]
    at most once, and neither [xm.optimizer_step] nor the base [setup]. *)
Theorem clip_gradients_at_most_once {World : Type}
    (env : ext_call -> World -> (exn + value) * World) (w : World)
    (self : TPUAccelerator) (optimizer : pyobj) (clip_val : number)
    (algorithm : GradClipAlgorithmType) :
  (count is_xla_clip_grad_norm_
     (trace (run env (clip_gradients self optimizer clip_val algorithm) w)) <= 1)%nat
  /\ count is_xm_optimizer_step
       (trace (run env (clip_gradients self optimizer clip_val algorithm) w)) = 0%nat
  /\ count is_Accelerator_setup
       (trace (run env (clip_gradients self optimizer clip_val algorithm) w)) = 0%nat.
Proof.
  destruct (clip_gradients_trace env w self optimizer clip_val algorithm)
    as [-> | (f & _ & ->)]; unfold count; simpl; repeat split; lia.
Qed.
